(** * proompt: sections, prompts and tool normalization

    A shallow embedding of [src/proompt/base/prompt.py]: the classes
    [PromptSection] and [BasePrompt], with the part of the Python object
    model their methods observe (identity of objects, [isinstance],
    truth testing, attribute lookup, exceptions and the interpreter's
    bounded call stack). *)

From Stdlib Require Import ZArith String List Bool Lia.
From stdpp Require Import base option list strings.

Set Warnings "-register-all".
Local Open Scope string_scope.
Local Open Scope list_scope.

(** ** Python values and the object store *)

(** Objects are identified by their address in the store: two references
    denote the same object exactly when they are equal. *)
Definition ref := nat.

(** The values the methods handle. Lists and dicts are the built-in ones
    (a dict keeps its items in insertion order; classes deriving from the
    built-in containers are not modelled, so [isinstance(v, list)] and
    [isinstance(v, dict)] hold of [VList] and [VDict] alone); every other
    object lives in the store and is reached through a reference. *)
Inductive value : Type :=
| VNone
| VInt (n : Z)
| VStr (s : string)
| VList (xs : list value)
| VDict (items : list (value * value))
| VRef (r : ref).

(** The classes [prompt.py] tests against, and all the others by name. *)
Inductive pyclass : Type :=
| Context
| ToolContext
| BaseProvider
| Class (name : string).

#[global] Instance pyclass_eq_dec : EqDecision pyclass.
Proof. solve_decision. Defined.

(** ** Exceptions *)

Inductive exn_class : Type :=
| ValueError
| TypeError
| AttributeError
| RecursionError
| NotImplementedError
| OtherException (name : string).

Record exn : Type := Exn { exn_cls : exn_class; exn_msg : string }.

Inductive result (A : Type) : Type :=
| Return (a : A)
| Raise (e : exn).

Arguments Return {A} a.
Arguments Raise {A} e.

(** [except (AttributeError, TypeError)] *)
Definition is_AttributeError_or_TypeError (e : exn) : bool :=
  match exn_cls e with
  | AttributeError | TypeError => true
  | _ => false
  end.

(** The specification's [ConfigurationError] is the error kind of a context
    read before it is set and of a rejected context assignment; the code
    raises the built-in [ValueError] for the former and [TypeError] for the
    latter. *)
Definition ConfigurationError (e : exn) : Prop :=
  exn_cls e = ValueError \/ exn_cls e = TypeError.

(** ** Objects *)

(** An instance: the method resolution order of its class, what its
    class answers to truth testing ([__bool__], [__len__], when it defines
    them), its data attributes, and the attributes whose evaluation raises
    (a property or a [__getattr__] of its class that fails), each with the
    exception it raises. *)
Record object : Type := mkObject {
  obj_mro : list pyclass;
  obj_bool : option bool;
  obj_len : option nat;
  obj_attrs : list (string * value);
  obj_raising : list (string * exn)
}.

(** An object all of whose attributes are plain data. *)
Definition Object (mro : list pyclass) (b : option bool) (len : option nat)
    (attrs : list (string * value)) : object :=
  mkObject mro b len attrs [].

Definition store := list object.

(** [type(v).__mro__] *)
Definition mro_of (h : store) (v : value) : list pyclass :=
  match v with
  | VNone => [Class "NoneType"; Class "object"]
  | VInt _ => [Class "int"; Class "object"]
  | VStr _ => [Class "str"; Class "object"]
  | VList _ => [Class "list"; Class "object"]
  | VDict _ => [Class "dict"; Class "object"]
  | VRef r => match h !! r with
              | Some o => obj_mro o
              | None => []
              end
  end.

(** [issubclass(cls, c)], for a class given by its resolution order. *)
Definition issubclass (mro : list pyclass) (c : pyclass) : bool :=
  bool_decide (c ∈ mro).

(** [isinstance(v, c)] *)
Definition isinstance (h : store) (v : value) (c : pyclass) : bool :=
  issubclass (mro_of h v) c.

(** [v is None] *)
Definition is_None (v : value) : bool :=
  match v with VNone => true | _ => false end.

(** Python's truth test, [bool(v)]: [None], zero and empty containers are
    false; an instance is true unless its class defines [__bool__]
    returning [False] or, failing that, [__len__] returning zero. *)
Definition truthy (h : store) (v : value) : bool :=
  match v with
  | VNone => false
  | VInt n => negb (Z.eqb n 0)
  | VStr s => negb (String.eqb s "")
  | VList xs => match xs with [] => false | _ => true end
  | VDict items => match items with [] => false | _ => true end
  | VRef r =>
      match h !! r with
      | Some o =>
          match obj_bool o with
          | Some b => b
          | None => match obj_len o with
                    | Some n => negb (Nat.eqb n 0)
                    | None => true
                    end
          end
      | None => true
      end
  end.

Fixpoint assoc {A : Type} (name : string) (attrs : list (string * A)) : option A :=
  match attrs with
  | [] => None
  | (k, v) :: rest => if String.eqb k name then Some v else assoc name rest
  end.

(** The exception that evaluating [v.name] raises, when it raises one.
    Built-in values carry none of the attributes probed here. *)
Definition attr_raises (h : store) (v : value) (name : string) : option exn :=
  match v with
  | VRef r => match h !! r with
              | Some o => assoc name (obj_raising o)
              | None => None
              end
  | _ => None
  end.

(** The value of [v.name], when its evaluation yields one: a failing
    property comes before the instance's data. *)
Definition lookup_attr (h : store) (v : value) (name : string) : option value :=
  match attr_raises h v name with
  | Some _ => None
  | None =>
      match v with
      | VRef r => match h !! r with
                  | Some o => assoc name (obj_attrs o)
                  | None => None
                  end
      | _ => None
      end
  end.

(** [hasattr(v, name)]: it evaluates [v.name]; an [AttributeError] is the
    answer [False], any other exception goes through. *)
Definition hasattr (h : store) (v : value) (name : string) : result bool :=
  match attr_raises h v name with
  | Some e => match exn_cls e with
              | AttributeError => Return false
              | _ => Raise e
              end
  | None => Return (match lookup_attr h v name with Some _ => true | None => false end)
  end.

(** [getattr(v, name, default)]: as [hasattr], with [default] for an
    [AttributeError]. *)
Definition getattr (h : store) (v : value) (name : string) (default : value)
    : result value :=
  match attr_raises h v name with
  | Some e => match exn_cls e with
              | AttributeError => Return default
              | _ => Raise e
              end
  | None => Return (match lookup_attr h v name with Some a => a | None => default end)
  end.

(** [v.name], as an expression. *)
Definition read_attr (h : store) (v : value) (name : string) : result value :=
  match attr_raises h v name with
  | Some e => Raise e
  | None => match lookup_attr h v name with
            | Some a => Return a
            | None => Raise (Exn AttributeError "missing attribute")
            end
  end.

(** [d.values()], in the dict's iteration order. *)
Definition dict_values (items : list (value * value)) : list value :=
  map snd items.

(** ** The section instance and the world the methods run in *)

(** The attributes [__init__] gives a section; [cls_name] is
    [self.__class__.__name__], which the error messages quote. *)
Record PromptSection : Type := mkPromptSection {
  cls_name : string;
  _context : value;
  providers : list value;
  tools : list value
}.

Record world : Type := World {
  heap : store;
  self : PromptSection
}.

(** A method body: it reads and updates the world and either returns or
    raises; updates made before an exception stay. *)
Definition M (A : Type) : Type := world -> result A * world.

Definition ret {A} (a : A) : M A := fun w => (Return a, w).

Definition raise {A} (e : exn) : M A := fun w => (Raise e, w).

Definition bind {A B} (m : M A) (k : A -> M B) : M B :=
  fun w => match m w with
           | (Return a, w') => k a w'
           | (Raise e, w') => (Raise e, w')
           end.

Notation "x <- m ;; k" := (bind m (fun x => k))
  (at level 100, m at next level, right associativity).
Notation "m ;;; k" := (bind m (fun _ => k))
  (at level 100, right associativity).

(** [try: m  except (AttributeError, TypeError): handler] *)
Definition try_except {A} (m : M A) (catches : exn -> bool) (handler : M A) : M A :=
  fun w => match m w with
           | (Return a, w') => (Return a, w')
           | (Raise e, w') => if catches e then handler w' else (Raise e, w')
           end.

Definition get_heap : M store := fun w => (Return (heap w), w).

Definition get_self : M PromptSection := fun w => (Return (self w), w).

Definition put_self (s : PromptSection) : M unit :=
  fun w => (Return tt, World (heap w) s).

(** Object creation: the new object gets the next free address. *)
Definition alloc (o : object) : M value :=
  fun w => (Return (VRef (length (heap w))), World (heap w ++ [o]) (self w)).

Definition set_context (c : value) (s : PromptSection) : PromptSection :=
  mkPromptSection (cls_name s) c (providers s) (tools s).

Definition set_providers (ps : list value) (s : PromptSection) : PromptSection :=
  mkPromptSection (cls_name s) (_context s) ps (tools s).

Definition set_tools (ts : list value) (s : PromptSection) : PromptSection :=
  mkPromptSection (cls_name s) (_context s) (providers s) ts.

(** ** The module [proompt.base.context]

    [prompt.py] imports [PYDANTIC_AI_AVAILABLE], [Context] and [ToolContext]
    from it. Its source is not part of the development, so the flag and the
    class method [ToolContext.from_pydantic_tool] are taken as parameters:
    the method reads the store and either raises or describes the new
    [ToolContext], which the call then creates. *)
Class ContextModule : Type := {
  PYDANTIC_AI_AVAILABLE : bool;
  from_pydantic_tool : store -> value -> result object
}.

(** [ToolContext.from_pydantic_tool(tool)] *)
Definition ToolContext_from_pydantic_tool `{ContextModule} (tool : value) : M value :=
  fun w => match from_pydantic_tool (heap w) tool with
           | Return o => alloc o w
           | Raise e => (Raise e, w)
           end.

(** Modelled from the spec: [ToolContext.from_pydantic_tool], whose source
    is missing. Section 4.1: a single foreign tool object "has callable
    identity, name, and description" and is wrapped "into one
    ToolDescriptor with name and description copied from the foreign
    object's own fields, and callable_ref pointing at its invocable
    payload". Reading a field the object lacks is an [AttributeError];
    a field whose evaluation raises lets its exception through. *)
Definition from_pydantic_tool_spec (h : store) (tool : value) : result object :=
  match read_attr h tool "function" with
  | Raise e => Raise e
  | Return f =>
      match read_attr h tool "name" with
      | Raise e => Raise e
      | Return n =>
          match read_attr h tool "description" with
          | Raise e => Raise e
          | Return d =>
              Return (Object [ToolContext; Context; Class "ABC"; Class "object"]
                        None None
                        [("tool_use", f); ("tool_name", n); ("tool_description", d)])
          end
      end
  end.

(** pydantic-ai installed, and not installed. *)
Definition with_pydantic_ai : ContextModule :=
  {| PYDANTIC_AI_AVAILABLE := true; from_pydantic_tool := from_pydantic_tool_spec |}.

Definition without_pydantic_ai : ContextModule :=
  {| PYDANTIC_AI_AVAILABLE := false; from_pydantic_tool := from_pydantic_tool_spec |}.

(** ** class PromptSection *)

Module PromptSection.

Section Methods.
Context `{ContextModule}.

(** The three loops over normalized tools share one body:
    [if normalized is None: continue], then [acc.extend(normalized)] for a
    list and [acc.append(normalized)] otherwise. *)
Definition collect (acc : list value) (normalized : value) : list value :=
  match normalized with
  | VNone => acc
  | VList xs => acc ++ xs
  | _ => acc ++ [normalized]
  end.

(** The loop of [_normalize_tool] over [tools_attr.values()], filling the
    local list [result]; [normalize] is the recursive call. *)
Fixpoint normalize_values (normalize : value -> M value)
    (values : list value) (result : list value) : M (list value) :=
  match values with
  | [] => ret result
  | tool_obj :: rest =>
      normalized <- normalize tool_obj ;;
      normalize_values normalize rest (collect result normalized)
  end.

(** The test that opens the collection branch of [_normalize_tool]:
    [PYDANTIC_AI_AVAILABLE and hasattr(tool, 'tools')], then
    [getattr(tool, 'tools', None)] and [isinstance(tools_attr, dict)]. It
    yields [tools_attr.values()] when the branch is taken, and raises what
    reading the attribute raises. *)
Definition tools_mapping_values (h : store) (tool : value)
    : result (option (list value)) :=
  if PYDANTIC_AI_AVAILABLE then
    match hasattr h tool "tools" with
    | Raise e => Raise e
    | Return false => Return None
    | Return true =>
        match getattr h tool "tools" VNone with
        | Raise e => Raise e
        | Return (VDict items) => Return (Some (dict_values items))
        | Return _ => Return None
        end
    end
  else Return None.

(** The end of [_normalize_tool]: the attempt to read [tool] as a
    pydantic-ai [Tool], and [None] without pydantic-ai. *)
Definition as_single_tool (tool : value) : M value :=
  if PYDANTIC_AI_AVAILABLE then
    try_except (ToolContext_from_pydantic_tool tool)
               is_AttributeError_or_TypeError (ret VNone)
  else ret VNone.

(** [_normalize_tool(self, tool)]. [depth] is the number of nested calls
    the interpreter's stack still has room for: a call with none left
    raises [RecursionError]. *)
Fixpoint _normalize_tool (depth : nat) (tool : value) : M value :=
  match depth with
  | 0 => raise (Exn RecursionError "maximum recursion depth exceeded")
  | S depth' =>
      if is_None tool then ret VNone
      else
        h <- get_heap ;;
        if isinstance h tool ToolContext then ret tool
        else
          match tools_mapping_values h tool with
          | Raise e => raise e
          | Return (Some values) =>
              result <- normalize_values (_normalize_tool depth') values [] ;;
              ret (match result with [] => VNone | _ => VList result end)
          | Return None => as_single_tool tool
          end
  end.

(** The loop of [__init__] and of [add_tools], which extends [self.tools]
    in place. *)
Fixpoint extend_tools (depth : nat) (ts : list value) : M unit :=
  match ts with
  | [] => ret tt
  | t :: rest =>
      if is_None t then extend_tools depth rest
      else
        normalized <- _normalize_tool depth t ;;
        s <- get_self ;;
        put_self (set_tools (collect (tools s) normalized) s) ;;;
        extend_tools depth rest
  end.

(** [__init__(self, context=None, tools=None, *providers)] *)
Definition __init__ (depth : nat) (context : value)
    (tools : option (list value)) (providers : list value) : M unit :=
  s <- get_self ;;
  put_self (set_context context s) ;;;
  s <- get_self ;;
  put_self (set_providers (match providers with [] => [] | _ => providers end) s) ;;;
  s <- get_self ;;
  put_self (set_tools [] s) ;;;
  extend_tools depth (match tools with
                      | None | Some [] => []
                      | Some ts => ts
                      end).

(** The property [context]. *)
Definition context : M value :=
  s <- get_self ;;
  h <- get_heap ;;
  if negb (truthy h (_context s)) then
    raise (Exn ValueError ("Context is not set for " +:+ cls_name s +:+ "."))
  else ret (_context s).

(** The setter of [context]; [value.__class__] is the type of [value]. *)
Definition context_setter (value : value) : M unit :=
  s <- get_self ;;
  h <- get_heap ;;
  if negb (isinstance h value Context)
     || Bool.eqb (issubclass (mro_of h value) Context) false then
    raise (Exn TypeError
             ("Context must be an instance of Context or its subclass for "
              +:+ cls_name s +:+ "."))
  else put_self (set_context value s).

(** [add_providers(self, *providers)] *)
Definition add_providers (ps : list value) : M unit :=
  s <- get_self ;;
  h <- get_heap ;;
  put_self (set_providers
              (providers s ++ List.filter (fun p => isinstance h p BaseProvider) ps) s).

(** [add_tools(self, *tools)] *)
Definition add_tools (depth : nat) (ts : list value) : M unit :=
  extend_tools depth ts.

End Methods.

(** The abstract methods [formatter] and [render]: a concrete subclass
    supplies both. *)
Class Subclass : Type := {
  formatter : list value -> M string;
  render : M string
}.

(** [__str__(self)] *)
Definition __str__ `{Subclass} : M string := render.

(** The call [cls(context, tools, *providers)] of a concrete subclass named
    [cls]: a new instance is initialised by [__init__] and returned, unless
    [__init__] raises. *)
Definition new `{ContextModule} (cls : string) (depth : nat) (context : value)
    (tools : option (list value)) (providers : list value) (h : store)
    : result PromptSection * store :=
  match __init__ depth context tools providers
          (World h (mkPromptSection cls VNone [] [])) with
  | (Return _, w) => (Return (self w), heap w)
  | (Raise e, w) => (Raise e, heap w)
  end.

End PromptSection.

(** ** class BasePrompt *)

Record BasePrompt : Type := mkBasePrompt {
  sections : list PromptSection
}.

Module BasePrompt.

(** [__init__(self, *sections)] *)
Definition __init__ (sections : list PromptSection) : BasePrompt :=
  mkBasePrompt (match sections with [] => [] | _ => sections end).

(** The abstract method [render] of a concrete prompt, run on the store. *)
Class Subclass : Type := {
  render : BasePrompt -> store -> result string * store
}.

(** [__str__(self)] *)
Definition __str__ `{Subclass} (self : BasePrompt) : store -> result string * store :=
  render self.

End BasePrompt.

(** ** Concrete subclasses (examples/04-pydantic_ai_tools_integration.py) *)

Module Examples.

(** [AnalysisSection.render] returns [self.formatter()]. *)
Definition AnalysisSection (formatter : M string) : PromptSection.Subclass :=
  {| PromptSection.formatter := fun _ => formatter;
     PromptSection.render := formatter |}.

(** The objects the example creates: a function, the [ToolContext] made of
    it, two functions wrapped as pydantic-ai [Tool]s, the [FunctionToolset]
    as [FunctionToolset(tools=[search_tool, metrics_tool])] creates it
    (the decorator further down the example registers a third tool in it),
    a context and a provider. *)
Definition format_report : object :=
  Object [Class "function"; Class "object"] None None
    [("__name__", VStr "format_report")].

Definition proompt_tool : object :=
  Object [ToolContext; Context; Class "ABC"; Class "object"] None None
    [("tool_use", VRef 0); ("tool_name", VStr "format_report");
     ("tool_description", VStr "Format data into a readable report.")].

Definition search_documents : object :=
  Object [Class "function"; Class "object"] None None
    [("__name__", VStr "search_documents")].

Definition search_tool : object :=
  Object [Class "Tool"; Class "object"] None None
    [("function", VRef 2); ("name", VStr "search_documents");
     ("description", VStr "Search through company documents.")].

Definition get_company_metrics : object :=
  Object [Class "function"; Class "object"] None None
    [("__name__", VStr "get_company_metrics")].

Definition metrics_tool : object :=
  Object [Class "Tool"; Class "object"] None None
    [("function", VRef 4); ("name", VStr "get_company_metrics");
     ("description", VStr "Retrieve company metrics.")].

Definition analysis_toolset : object :=
  Object [Class "FunctionToolset"; Class "object"] None None
    [("tools", VDict [(VStr "search_documents", VRef 3);
                      (VStr "get_company_metrics", VRef 5)])].

Definition simple_context : object :=
  Object [Class "SimpleContext"; Context; Class "ABC"; Class "object"] None None
    [("company", VStr "StartupCorp"); ("quarter", VStr "Q3 2024")].

Definition metrics_provider : object :=
  Object [Class "SimpleMetricsProvider"; BaseProvider; Class "ABC"; Class "object"]
    None None [("quarter", VStr "Q3 2024")].

Definition example_store : store :=
  [format_report; proompt_tool; search_documents; search_tool;
   get_company_metrics; metrics_tool; analysis_toolset; simple_context;
   metrics_provider].

(** A freshly created [AnalysisSection()]. *)
Definition section4 : PromptSection :=
  mkPromptSection "AnalysisSection" VNone [] [].

Definition example_world : world := World example_store section4.



(** An instance of a [Context] subclass that defines [__len__], while it
    is empty: [class Notes(Context): ... def __len__(self): return
    len(self.lines)]. *)
Definition empty_notes : object :=
  Object [Class "Notes"; Context; Class "ABC"; Class "object"] None (Some 0)
    [("lines", VList [])].

Definition notes_store : store := [empty_notes].

(** A [MetricsSection] whose context is the empty notes. *)
Definition notes_section : PromptSection :=
  mkPromptSection "MetricsSection" (VRef 0) [] [].

(** A store with a native tool and, at address 2, a box that holds
    itself: what [add_tools(proompt_tool, box)] runs on. *)
Definition box_at_2 : object :=
  Object [Class "Box"; Class "object"] None None
    [("tools", VDict [(VStr "me", VRef 2)])].

Definition boxed_world : world :=
  World [format_report; proompt_tool; box_at_2] section4.




End Examples.

(** ** Predicates of the statements *)

Section Predicates.
Context `{ContextModule}.

(** [v] is a value over the store [h]: a reference points to an object. *)
Definition valid (h : store) (v : value) : Prop :=
  match v with
  | VRef r => is_Some (h !! r)
  | _ => True
  end.

(** [_normalize_tool] returns on [tool] with room for [n] nested calls
    below the first: [tool] is a value over [h]; it is [None] or a
    [ToolContext], or else reading its [tools] attribute does not raise
    and either it is a collection, [0 < n] and each of its tools is such
    a value for [n - 1], or it is handed to the conversion, which raises
    nothing but what [_normalize_tool] catches on it (in [h] and in [h]
    with the descriptors created meanwhile). *)
Fixpoint normalizable (h : store) (n : nat) (tool : value) {struct n} : Prop :=
  valid h tool /\
  if is_None tool || isinstance h tool ToolContext then True
  else
    match PromptSection.tools_mapping_values h tool with
    | Raise _ => False
    | Return (Some values) =>
        match n with
        | 0 => False
        | S n' => Forall (normalizable h n') values
        end
    | Return None =>
        PYDANTIC_AI_AVAILABLE = true ->
        forall new_objects e,
          from_pydantic_tool (h ++ new_objects) tool = Raise e ->
          is_AttributeError_or_TypeError e = true
    end.

(** World [w'] comes from [w] by creating objects: the section is the
    same and the store has grown at its end. *)
Definition grown (w w' : world) : Prop :=
  self w' = self w /\ exists new_objects, heap w' = heap w ++ new_objects.

(** The descriptors one normalization result contributes. *)
Definition descriptors_of (normalized : value) : list value :=
  match normalized with
  | VNone => []
  | VList xs => xs
  | _ => [normalized]
  end.

(** Normalizing the values [vs] one after the other, from world [w],
    returns the results [rs] and leaves the world [w']. *)
Inductive normalize_each (depth : nat) : world -> list value -> list value -> world -> Prop :=
| normalize_each_nil w : normalize_each depth w [] [] w
| normalize_each_cons w v r w1 vs rs w2 :
    PromptSection._normalize_tool depth v w = (Return r, w1) ->
    normalize_each depth w1 vs rs w2 ->
    normalize_each depth w (v :: vs) (r :: rs) w2.

(** The conversion builds instances of [ToolContext], as its return
    annotation in [_normalize_tool]'s signature says. *)
Definition conversion_yields_ToolContext : Prop :=
  forall h tool o,
    from_pydantic_tool h tool = Return o -> issubclass (obj_mro o) ToolContext = true.

(** Every element of [self.tools] is an instance of [ToolContext]. *)
Definition tools_are_ToolContexts (w : world) : Prop :=
  Forall (fun d => isinstance (heap w) d ToolContext = true) (tools (self w)).

Definition is_ref (v : value) : bool :=
  match v with VRef _ => true | _ => false end.

(** The shapes of a normalization result: [None], one object, or a list
    of objects that is not empty. *)
Definition normalized_shape (r : value) : Prop :=
  match r with
  | VNone | VRef _ => True
  | VList xs => xs <> [] /\ Forall (fun d => is_ref d = true) xs
  | _ => False
  end.

End Predicates.

(** * Properties *)

(** ** The monad and the store *)

Ltac run :=
  unfold bind, ret, raise, get_heap, get_self, put_self, try_except, alloc; simpl.

Section Properties.
Context `{ContextModule}.

Lemma grown_refl w : grown w w.
Proof. split; [reflexivity | exists []; symmetry; apply app_nil_r]. Qed.

Lemma grown_trans w1 w2 w3 : grown w1 w2 -> grown w2 w3 -> grown w1 w3.
Proof.
  intros [S12 [e12 H12]] [S23 [e23 H23]]. split.
  - congruence.
  - exists (e12 ++ e23). rewrite H23, H12. symmetry. apply app_assoc.
Qed.

Lemma grown_lookup w w' r o :
  grown w w' -> heap w !! r = Some o -> heap w' !! r = Some o.
Proof.
  intros [_ [ext E]] L. rewrite E. now apply lookup_app_l_Some.
Qed.

(** The body of [_normalize_tool], one call deep. *)
Lemma normalize_tool_eq depth tool w :
  PromptSection._normalize_tool (S depth) tool w =
  if is_None tool then (Return VNone, w)
  else if isinstance (heap w) tool ToolContext then (Return tool, w)
  else match PromptSection.tools_mapping_values (heap w) tool with
       | Raise e => (Raise e, w)
       | Return (Some values) =>
           match PromptSection.normalize_values
                   (PromptSection._normalize_tool depth) values [] w with
           | (Return result, w') =>
               (Return (match result with [] => VNone | _ => VList result end), w')
           | (Raise e, w') => (Raise e, w')
           end
       | Return None => PromptSection.as_single_tool tool w
       end.
Proof.
  simpl. destruct (is_None tool); [reflexivity |].
  run. destruct (isinstance (heap w) tool ToolContext); [reflexivity |].
  destruct (PromptSection.tools_mapping_values (heap w) tool) as [[values |] | e];
    reflexivity.
Qed.

Lemma as_single_tool_grown tool w r w' :
  PromptSection.as_single_tool tool w = (r, w') -> grown w w'.
Proof.
  unfold PromptSection.as_single_tool, ToolContext_from_pydantic_tool. run.
  destruct PYDANTIC_AI_AVAILABLE.
  - destruct (from_pydantic_tool (heap w) tool) as [o | e]; simpl.
    + intros E; inversion E; subst. split; [reflexivity | now exists [o]].
    + destruct (is_AttributeError_or_TypeError e);
        intros E; inversion E; subst; apply grown_refl.
  - intros E; inversion E; subst; apply grown_refl.
Qed.

Lemma normalize_values_grown (normalize : value -> M value) :
  (forall tool w r w', normalize tool w = (r, w') -> grown w w') ->
  forall values result w r w',
    PromptSection.normalize_values normalize values result w = (r, w') ->
    grown w w'.
Proof.
  intros Hn values. induction values as [| v vs IH]; intros result w r w'; simpl.
  - run. intros E; inversion E; subst. apply grown_refl.
  - unfold bind. destruct (normalize v w) as [[a | e] w1] eqn:E1.
    + intros E. apply grown_trans with w1; [eapply Hn | eapply IH]; eassumption.
    + intros E; inversion E; subst. eapply Hn; eassumption.
Qed.

(** Normalization leaves the section alone and only adds objects, whether
    it returns or raises. *)
Lemma normalize_tool_grown depth :
  forall tool w r w',
    PromptSection._normalize_tool depth tool w = (r, w') -> grown w w'.
Proof.
  induction depth as [| depth IH]; intros tool w r w'.
  - simpl. run. intros E; inversion E; subst. apply grown_refl.
  - rewrite normalize_tool_eq.
    destruct (is_None tool); [intros E; inversion E; subst; apply grown_refl |].
    destruct (isinstance (heap w) tool ToolContext);
      [intros E; inversion E; subst; apply grown_refl |].
    destruct (PromptSection.tools_mapping_values (heap w) tool) as [[values |] | e0].
    + destruct (PromptSection.normalize_values _ values [] w) as [[res | e] w1] eqn:E1;
        intros E; inversion E; subst;
        eapply normalize_values_grown; eauto.
    + apply as_single_tool_grown.
    + intros E; inversion E; subst; apply grown_refl.
Qed.

(** ** The loop of [__init__] and [add_tools] *)

(** The loop touches [self.tools] only, and only adds objects. *)
Lemma extend_tools_keeps depth ts :
  forall w r w',
    PromptSection.extend_tools depth ts w = (r, w') ->
    cls_name (self w') = cls_name (self w)
    /\ _context (self w') = _context (self w)
    /\ providers (self w') = providers (self w)
    /\ exists new_objects, heap w' = heap w ++ new_objects.
Proof.
  induction ts as [| t rest IH]; intros w r w'; simpl.
  - run. intros E; inversion E; subst.
    repeat split; exists []; symmetry; apply app_nil_r.
  - destruct (is_None t); [apply IH |].
    unfold bind at 1.
    destruct (PromptSection._normalize_tool depth t w) as [[a | e] w1] eqn:E1;
      pose proof (normalize_tool_grown _ _ _ _ _ E1) as [Hs [ext Hh]].
    + run. intros E. apply IH in E. simpl in E.
      destruct E as (E1' & E2 & E3 & ext' & E4).
      rewrite Hs in E1', E2, E3. repeat split; try assumption.
      exists (ext ++ ext'). rewrite E4, Hh. symmetry. apply app_assoc.
    + intros E; inversion E; subst. rewrite Hs. repeat split. now exists ext.
Qed.

(** What a constructed section holds. *)
Lemma new_fields cls depth ctx tools provs h s h' :
  PromptSection.new cls depth ctx tools provs h = (Return s, h') ->
  cls_name s = cls /\ _context s = ctx /\ providers s = provs.
Proof.
  unfold PromptSection.new, PromptSection.__init__. run.
  match goal with
  | |- context [PromptSection.extend_tools ?d ?ts ?w] =>
      destruct (PromptSection.extend_tools d ts w) as [[u | e] w1] eqn:E
  end; [| discriminate].
  intros E'; inversion E'; subst.
  apply extend_tools_keeps in E. simpl in E. destruct E as (E1 & E2 & E3 & _).
  repeat split; try assumption.
  rewrite E3. now destruct provs.
Qed.

(** Without tools the constructor returns, and creates no object. *)
Lemma new_without_tools cls depth ctx provs h :
  PromptSection.new cls depth ctx None provs h =
  (Return (mkPromptSection cls ctx provs []), h).
Proof.
  unfold PromptSection.new, PromptSection.__init__. run. now destruct provs.
Qed.

Lemma world_eta w :
  World (heap w)
    (mkPromptSection (cls_name (self w)) (_context (self w))
       (providers (self w)) (tools (self w))) = w.
Proof. now destruct w as [h []]. Qed.

(** ** The context property *)

Lemma context_unset w :
  truthy (heap w) (_context (self w)) = false ->
  PromptSection.context w =
  (Raise (Exn ValueError ("Context is not set for " +:+ cls_name (self w) +:+ ".")), w).
Proof. intros E. unfold PromptSection.context. run. now rewrite E. Qed.

Lemma context_set w :
  truthy (heap w) (_context (self w)) = true ->
  PromptSection.context w = (Return (_context (self w)), w).
Proof. intros E. unfold PromptSection.context. run. now rewrite E. Qed.

(** C2: a section constructed without a context (the argument left at its
    default [None]) raises on every read of its [context] property: the
    getter raises [ValueError] naming the section's class, the code's
    counterpart of the specification's [ConfigurationError], and returns no
    default. *)
Theorem context_read_before_set_raises cls depth tools provs h s h' :
  PromptSection.new cls depth VNone tools provs h = (Return s, h') ->
  exists e,
    PromptSection.context (World h' s) = (Raise e, World h' s)
    /\ e = Exn ValueError ("Context is not set for " +:+ cls +:+ ".")
    /\ ConfigurationError e.
Proof.
  intros E. apply new_fields in E as (Ec & Ex & _).
  eexists. split; [| split; [reflexivity | now left]].
  rewrite context_unset; simpl; [now rewrite Ec | now rewrite Ex].
Qed.

(** C3: assigning a value that is not an instance of [Context] raises
    [TypeError] (the specification's [ConfigurationError]) and leaves the
    world, and with it the stored context, as it was. *)
Theorem context_setter_rejects_non_context w value :
  isinstance (heap w) value Context = false ->
  exists e,
    PromptSection.context_setter value w = (Raise e, w)
    /\ exn_cls e = TypeError
    /\ ConfigurationError e
    /\ _context (self (snd (PromptSection.context_setter value w))) = _context (self w).
Proof.
  intros E. unfold PromptSection.context_setter. run. rewrite E. simpl.
  eexists. split; [reflexivity |]. split; [reflexivity |]. split; [now right | reflexivity].
Qed.

(** An instance of [Context] is accepted and stored. *)
Lemma context_setter_accepts w value :
  isinstance (heap w) value Context = true ->
  PromptSection.context_setter value w =
  (Return tt, World (heap w) (set_context value (self w))).
Proof.
  intros E. unfold PromptSection.context_setter. run. rewrite E.
  unfold isinstance in E. now rewrite E.
Qed.

(** A context that tests true is read back as the very object that was
    assigned. *)
Lemma context_read_after_set w c :
  isinstance (heap w) c Context = true ->
  truthy (heap w) c = true ->
  forall w', snd (PromptSection.context_setter c w) = w' ->
  PromptSection.context w' = (Return c, w').
Proof.
  intros Ei Et w' <-. rewrite context_setter_accepts by assumption. simpl.
  now rewrite context_set.
Qed.

(** ** add_providers *)

(** C6: for every argument list and in every world, [add_providers]
    returns and has appended exactly the arguments that are instances of
    [BaseProvider], in argument order, dropping the others; nothing else
    of the section or the store changes. With the arguments [42],
    ["not a provider"] and a provider, one provider is added; with [42]
    and ["not a provider"] alone, nothing changes. *)
Theorem add_providers_keeps_only_providers w ps :
  (exists w',
      PromptSection.add_providers ps w = (Return tt, w')
      /\ providers (self w') =
         providers (self w) ++ List.filter (fun p => isinstance (heap w) p BaseProvider) ps
      /\ heap w' = heap w /\ _context (self w') = _context (self w)
      /\ tools (self w') = tools (self w))
  /\ (forall valid,
      isinstance (heap w) valid BaseProvider = true ->
      exists w',
        PromptSection.add_providers [VInt 42; VStr "not a provider"; valid] w =
        (Return tt, w')
        /\ providers (self w') = providers (self w) ++ [valid]
        /\ length (providers (self w')) = S (length (providers (self w))))
  /\ PromptSection.add_providers [VInt 42; VStr "not a provider"] w = (Return tt, w).
Proof.
  unfold PromptSection.add_providers. run. split; [| split].
  - eexists. split; [reflexivity |]. simpl. repeat split.
  - intros valid E. eexists. split; [reflexivity |]. simpl. rewrite E. simpl.
    split; [reflexivity |]. rewrite length_app. simpl. lia.
  - unfold set_providers. rewrite app_nil_r. now rewrite world_eta.
Qed.

(** ** The constructor *)

(** C9: the constructor keeps its positional provider arguments as they
    are, [None] and non-providers included and in argument order: it does
    not filter them as [add_providers] does. *)
Theorem init_keeps_providers_verbatim cls depth ctx tools provs h s h' :
  PromptSection.new cls depth ctx tools provs h = (Return s, h') ->
  providers s = provs
  /\ exists s0,
      PromptSection.new cls depth ctx None provs h = (Return s0, h)
      /\ providers s0 = provs.
Proof.
  intros E. split; [now apply new_fields in E |].
  eexists. split; [apply new_without_tools | reflexivity].
Qed.

(** ** Tool normalization *)

(** C4: a value that is already a [ToolContext] is returned as it is: the
    result is the same reference, and no object is created. *)
Theorem normalize_tool_identity depth w d :
  isinstance (heap w) d ToolContext = true ->
  PromptSection._normalize_tool (S depth) d w = (Return d, w).
Proof.
  intros E. rewrite normalize_tool_eq, E.
  destruct d; reflexivity.
Qed.

(** C8: without pydantic-ai, [_normalize_tool] returns [None] for every
    input that is not a [ToolContext], single tools and tool collections
    included, and [add_tools] called with such inputs leaves the section
    and the store as they were. *)
Theorem normalize_tool_without_pydantic_ai depth w x xs :
  PYDANTIC_AI_AVAILABLE = false ->
  isinstance (heap w) x ToolContext = false ->
  Forall (fun t => isinstance (heap w) t ToolContext = false) xs ->
  PromptSection._normalize_tool (S depth) x w = (Return VNone, w)
  /\ PromptSection.add_tools (S depth) xs w = (Return tt, w).
Proof.
  intros Hflag.
  assert (Hone : forall t, isinstance (heap w) t ToolContext = false ->
            PromptSection._normalize_tool (S depth) t w = (Return VNone, w)).
  { intros t Et. rewrite normalize_tool_eq, Et.
    unfold PromptSection.tools_mapping_values, PromptSection.as_single_tool.
    rewrite Hflag. simpl. now destruct (is_None t). }
  intros Ex Exs. split; [now apply Hone |].
  unfold PromptSection.add_tools.
  induction Exs as [| t rest Et _ IH]; [reflexivity |].
  cbn [PromptSection.extend_tools].
  destruct (is_None t); [exact IH |].
  unfold bind at 1. rewrite (Hone t Et). run.
  rewrite world_eta. exact IH.
Qed.

Lemma lookup_attr_no_raise h v name a :
  lookup_attr h v name = Some a -> attr_raises h v name = None.
Proof.
  unfold lookup_attr. now destruct (attr_raises h v name).
Qed.

Lemma collect_descriptors acc r :
  PromptSection.collect acc r = acc ++ descriptors_of r.
Proof. destruct r; simpl; try reflexivity. symmetry; apply app_nil_r. Qed.

(** The loop over a mapping's values returns the descriptors of the
    successive results, in order, after what [result] held. *)
Lemma normalize_values_each depth w vs rs w' :
  normalize_each depth w vs rs w' ->
  forall acc,
    PromptSection.normalize_values (PromptSection._normalize_tool depth) vs acc w =
    (Return (acc ++ concat (map descriptors_of rs)), w').
Proof.
  induction 1 as [w | w v r w1 vs rs w2 E _ IH]; intros acc; simpl.
  - run. now rewrite app_nil_r.
  - unfold bind. rewrite E, IH, collect_descriptors. now rewrite <- app_assoc.
Qed.

(** C5, as the code has it: with pydantic-ai available, an input that is
    not a [ToolContext] and whose attribute [tools] is a dict is normalized
    value by value, in the dict's iteration order, and the descriptors are
    returned as one list in that order; for [{a: toolA, b: toolB}] whose
    tools normalize to the descriptors [dA] and [dB] the result is
    [[dA, dB]]; for an empty dict it is [None]. *)
Theorem normalize_tool_flattens_collection depth w x :
  PYDANTIC_AI_AVAILABLE = true ->
  isinstance (heap w) x ToolContext = false ->
  (forall items rs w',
      lookup_attr (heap w) x "tools" = Some (VDict items) ->
      normalize_each depth w (dict_values items) rs w' ->
      PromptSection._normalize_tool (S depth) x w =
      (Return (match concat (map descriptors_of rs) with
               | [] => VNone
               | ds => VList ds
               end), w'))
  /\ (forall a toolA b toolB dA dB w1 w2,
      lookup_attr (heap w) x "tools" = Some (VDict [(a, toolA); (b, toolB)]) ->
      PromptSection._normalize_tool depth toolA w = (Return (VRef dA), w1) ->
      PromptSection._normalize_tool depth toolB w1 = (Return (VRef dB), w2) ->
      PromptSection._normalize_tool (S depth) x w =
      (Return (VList [VRef dA; VRef dB]), w2))
  /\ (lookup_attr (heap w) x "tools" = Some (VDict []) ->
      PromptSection._normalize_tool (S depth) x w = (Return VNone, w)).
Proof.
  intros Hflag Ex.
  assert (G : forall items rs w',
      lookup_attr (heap w) x "tools" = Some (VDict items) ->
      normalize_each depth w (dict_values items) rs w' ->
      PromptSection._normalize_tool (S depth) x w =
      (Return (match concat (map descriptors_of rs) with
               | [] => VNone
               | ds => VList ds
               end), w')).
  { intros items rs w' La Hn. rewrite normalize_tool_eq, Ex.
    assert (is_None x = false) as -> by (destruct x; try reflexivity; discriminate La).
    unfold PromptSection.tools_mapping_values, hasattr, getattr.
    rewrite Hflag, (lookup_attr_no_raise _ _ _ _ La), La. simpl.
    rewrite (normalize_values_each _ _ _ _ _ Hn []). simpl.
    now destruct (concat (map descriptors_of rs)). }
  split; [exact G |]. split.
  - intros a toolA b toolB dA dB w1 w2 La EA EB.
    apply (G _ [VRef dA; VRef dB] w2 La).
    eapply normalize_each_cons; [exact EA |].
    eapply normalize_each_cons; [exact EB |]. constructor.
  - intros La. apply (G _ [] w La). constructor.
Qed.

(** ** Normalization returns on well-behaved inputs *)

Lemma normalizable_eq h n tool :
  normalizable h n tool =
  (valid h tool /\
   if is_None tool || isinstance h tool ToolContext then True
   else
     match PromptSection.tools_mapping_values h tool with
     | Raise _ => False
     | Return (Some values) =>
         match n with
         | 0 => False
         | S n' => Forall (normalizable h n') values
         end
     | Return None =>
         PYDANTIC_AI_AVAILABLE = true ->
         forall new_objects e,
           from_pydantic_tool (h ++ new_objects) tool = Raise e ->
           is_AttributeError_or_TypeError e = true
     end).
Proof. destruct n; reflexivity. Qed.

Lemma mro_of_app h new_objects v :
  valid h v -> mro_of (h ++ new_objects) v = mro_of h v.
Proof.
  destruct v; simpl; try reflexivity.
  intros [o Lo]. now rewrite (lookup_app_l_Some _ _ _ _ Lo), Lo.
Qed.












(** The inputs the statement names: [None], a [ToolContext] and, without
    pydantic-ai, any value of the store need nothing of the conversion. *)
Lemma normalizable_plain h v :
  valid h v ->
  is_None v = true \/ isinstance h v ToolContext = true
  \/ PYDANTIC_AI_AVAILABLE = false ->
  normalizable h 0 v.
Proof.
  intros V C. rewrite normalizable_eq. split; [exact V |].
  destruct C as [-> | [-> | Hf]]; [exact I | now rewrite orb_true_r |].
  destruct (is_None v || isinstance h v ToolContext); [exact I |].
  unfold PromptSection.tools_mapping_values. rewrite Hf. discriminate.
Qed.

(** ** String conversion *)

(** C10: [__str__] of a section and of a prompt is [render]: on every
    world, resp. store, it returns what [render] returns, or raises what
    [render] raises. *)
Theorem str_is_render :
  (forall (section_class : PromptSection.Subclass) (w : world),
      PromptSection.__str__ w = PromptSection.render w)
  /\ (forall (prompt_class : BasePrompt.Subclass) (p : BasePrompt) (h : store),
      BasePrompt.__str__ p h = BasePrompt.render p h).
Proof. split; reflexivity. Qed.

End Properties.

(** ** On the example objects *)

(** An [AnalysisSection] whose formatter yields a fixed text. *)
Example str_of_analysis_section :
  PromptSection.__str__ (H := Examples.AnalysisSection (ret "## ANALYSIS TOOLS"))
    Examples.example_world =
  (Return "## ANALYSIS TOOLS", Examples.example_world).
Proof. reflexivity. Qed.

(** [section4.add_tools(proompt_tool)], then
    [add_tools(search_tool, metrics_tool)], then [add_tools] of the
    toolset of two tools: one, three and five tools. (The example program
    registers a third tool in its toolset before this and so ends with
    six.) *)
Example example_add_tools :
  let w1 := snd (PromptSection.add_tools (H := with_pydantic_ai) 3 [VRef 1]
                   Examples.example_world) in
  let w2 := snd (PromptSection.add_tools (H := with_pydantic_ai) 3 [VRef 3; VRef 5] w1) in
  let w3 := snd (PromptSection.add_tools (H := with_pydantic_ai) 3 [VRef 6] w2) in
  tools (self w1) = [VRef 1]
  /\ tools (self w2) = [VRef 1; VRef 9; VRef 10]
  /\ tools (self w3) = [VRef 1; VRef 9; VRef 10; VRef 11; VRef 12]
  /\ lookup_attr (heap w3) (VRef 12) "tool_name" = Some (VStr "get_company_metrics").
Proof. repeat split. Qed.




Lemma context_read_before_set_witness :
  exists e,
    PromptSection.context
      (World Examples.example_store
         (mkPromptSection "AnalysisSection" VNone [VRef 8] [VRef 1])) =
    (Raise e, World Examples.example_store
                (mkPromptSection "AnalysisSection" VNone [VRef 8] [VRef 1]))
    /\ e = Exn ValueError ("Context is not set for " +:+ "AnalysisSection" +:+ ".")
    /\ ConfigurationError e.
Proof.
  apply (context_read_before_set_raises (H := with_pydantic_ai)
           "AnalysisSection" 2 (Some [VRef 1]) [VRef 8] Examples.example_store).
  reflexivity.
Defined.

Lemma context_setter_rejects_witness :
  isinstance (heap Examples.example_world) (VInt 42) Context = false
  /\ exists e,
      PromptSection.context_setter (VInt 42) Examples.example_world =
      (Raise e, Examples.example_world)
      /\ exn_cls e = TypeError
      /\ ConfigurationError e
      /\ _context (self (snd (PromptSection.context_setter (VInt 42)
                                 Examples.example_world))) =
         _context (self Examples.example_world).
Proof.
  split; [reflexivity |].
  apply (context_setter_rejects_non_context Examples.example_world (VInt 42)).
  reflexivity.
Defined.

Lemma normalize_tool_identity_witness :
  isinstance (heap Examples.example_world) (VRef 1) ToolContext = true
  /\ PromptSection._normalize_tool (H := with_pydantic_ai) 1 (VRef 1)
       Examples.example_world = (Return (VRef 1), Examples.example_world).
Proof.
  split; [reflexivity |].
  apply (normalize_tool_identity (H := with_pydantic_ai) 0
           Examples.example_world (VRef 1)).
  reflexivity.
Defined.

(** C5 as stated fails: the tool collection of the example, whose mapping
    holds two tools, is normalized to [None] when pydantic-ai is not
    available. *)
Lemma normalize_tool_collection_without_pydantic_ai :
  lookup_attr (heap Examples.example_world) (VRef 6) "tools" =
  Some (VDict [(VStr "search_documents", VRef 3);
               (VStr "get_company_metrics", VRef 5)])
  /\ PromptSection._normalize_tool (H := without_pydantic_ai) 2 (VRef 6)
       Examples.example_world = (Return VNone, Examples.example_world).
Proof. split; reflexivity. Qed.

Lemma normalize_tool_flattens_witness :
  PromptSection._normalize_tool (H := with_pydantic_ai) 2 (VRef 6)
    Examples.example_world =
  (Return (VList [VRef 9; VRef 10]),
   snd (PromptSection._normalize_tool (H := with_pydantic_ai) 1 (VRef 5)
          (snd (PromptSection._normalize_tool (H := with_pydantic_ai) 1 (VRef 3)
                  Examples.example_world)))).
Proof.
  destruct (normalize_tool_flattens_collection (H := with_pydantic_ai) 1
              Examples.example_world (VRef 6) eq_refl eq_refl) as (_ & Two & _).
  apply (Two (VStr "search_documents") (VRef 3) (VStr "get_company_metrics") (VRef 5)
             9 10
             (snd (PromptSection._normalize_tool (H := with_pydantic_ai) 1 (VRef 3)
                     Examples.example_world)));
    reflexivity.
Defined.

Lemma add_providers_witness :
  (exists w',
      PromptSection.add_providers [VInt 42; VStr "not a provider"; VRef 8]
        Examples.example_world = (Return tt, w')
      /\ providers (self w') = providers (self Examples.example_world) ++ [VRef 8]
      /\ length (providers (self w')) = S (length (providers (self Examples.example_world))))
  /\ PromptSection.add_providers [VInt 42; VStr "not a provider"]
       (World Examples.notes_store Examples.notes_section) =
     (Return tt, World Examples.notes_store Examples.notes_section).
Proof.
  split.
  - destruct (add_providers_keeps_only_providers Examples.example_world []) as (_ & One & _).
    exact (One (VRef 8) eq_refl).
  - destruct (add_providers_keeps_only_providers
                (World Examples.notes_store Examples.notes_section) []) as (_ & _ & None2).
    exact None2.
Defined.

(** C7 fails on the code: a [Context] whose class defines [__len__] and
    which is empty passes the setter's and the constructor's hands, and the
    getter then tests its truth value and reports it as not set. *)
Theorem context_getter_rejects_falsy_context :
  isinstance Examples.notes_store (VRef 0) Context = true
  /\ PromptSection.new (H := with_pydantic_ai) "MetricsSection" 1 (VRef 0) None []
       Examples.notes_store = (Return Examples.notes_section, Examples.notes_store)
  /\ PromptSection.context_setter (VRef 0)
       (World Examples.notes_store (mkPromptSection "MetricsSection" VNone [] [])) =
     (Return tt, World Examples.notes_store Examples.notes_section)
  /\ PromptSection.context (World Examples.notes_store Examples.notes_section) =
     (Raise (Exn ValueError "Context is not set for MetricsSection."),
      World Examples.notes_store Examples.notes_section).
Proof. repeat split. Qed.

Lemma normalize_tool_without_pydantic_ai_witness :
  PromptSection._normalize_tool (H := without_pydantic_ai) 1 (VRef 6)
    Examples.example_world = (Return VNone, Examples.example_world)
  /\ PromptSection.add_tools (H := without_pydantic_ai) 1
       [VRef 3; VRef 6; VInt 5; VNone] Examples.example_world =
     (Return tt, Examples.example_world).
Proof.
  apply (normalize_tool_without_pydantic_ai (H := without_pydantic_ai) 0
           Examples.example_world (VRef 6) [VRef 3; VRef 6; VInt 5; VNone]).
  - reflexivity.
  - reflexivity.
  - repeat constructor.
Defined.

Lemma init_keeps_providers_witness :
  providers (mkPromptSection "AnalysisSection" (VRef 7) [VNone; VInt 42; VRef 8] [VRef 1]) =
  [VNone; VInt 42; VRef 8]
  /\ exists s0,
      PromptSection.new (H := with_pydantic_ai) "AnalysisSection" 2 (VRef 7) None
        [VNone; VInt 42; VRef 8] Examples.example_store =
      (Return s0, Examples.example_store)
      /\ providers s0 = [VNone; VInt 42; VRef 8].
Proof.
  apply (init_keeps_providers_verbatim (H := with_pydantic_ai) "AnalysisSection" 2
           (VRef 7) (Some [VRef 1]) [VNone; VInt 42; VRef 8] Examples.example_store
           _ Examples.example_store).
  reflexivity.
Defined.

(** * Further properties of [prompt.py] *)

Section Coverage.
Context `{ContextModule}.

(** ** add_tools and the constructor *)

Lemma extend_tools_app depth xs :
  forall ys w,
    PromptSection.extend_tools depth (xs ++ ys) w =
    match PromptSection.extend_tools depth xs w with
    | (Return _, w1) => PromptSection.extend_tools depth ys w1
    | (Raise e, w1) => (Raise e, w1)
    end.
Proof.
  induction xs as [| t rest IH]; intros ys w; simpl; [reflexivity |].
  destruct (is_None t); [apply IH |].
  unfold bind at 1 4.
  destruct (PromptSection._normalize_tool depth t w) as [[a | e] w1];
    [| reflexivity].
  run. apply IH.
Qed.

(** X2: [add_tools] called with the arguments [xs] followed by [ys] does what
    [add_tools] with [xs] and then [add_tools] with [ys] do; if the first
    call raises, so does the joint one, in the same world. *)
Theorem add_tools_sequence depth xs ys w :
  PromptSection.add_tools depth (xs ++ ys) w =
  match PromptSection.add_tools depth xs w with
  | (Return _, w1) => PromptSection.add_tools depth ys w1
  | (Raise e, w1) => (Raise e, w1)
  end.
Proof. apply extend_tools_app. Qed.

(** X5: The constructor called with tools does what the constructor called
    without tools followed by [add_tools] does. *)
Theorem new_is_new_then_add_tools cls depth ctx ts provs h :
  PromptSection.new cls depth ctx (Some ts) provs h =
  match PromptSection.new cls depth ctx None provs h with
  | (Return s, h0) =>
      match PromptSection.add_tools depth ts (World h0 s) with
      | (Return _, w) => (Return (self w), heap w)
      | (Raise e, w) => (Raise e, heap w)
      end
  | (Raise e, h0) => (Raise e, h0)
  end.
Proof.
  rewrite new_without_tools.
  unfold PromptSection.new, PromptSection.__init__, PromptSection.add_tools. run.
  destruct provs, ts; reflexivity.
Qed.

Lemma instance_is_ref h d c :
  isinstance h d c = true ->
  c = Context \/ c = ToolContext \/ c = BaseProvider -> exists r, d = VRef r.
Proof.
  intros E C. destruct d; try (now eexists);
    destruct C as [-> | [-> | ->]]; discriminate E.
Qed.

(** X4: Native tools are appended as they are: the same objects, in argument
    order, repeated when an argument is repeated, and no object is
    created; pydantic-ai plays no part. *)
Theorem add_tools_native depth ds w :
  Forall (fun d => isinstance (heap w) d ToolContext = true) ds ->
  PromptSection.add_tools (S depth) ds w =
  (Return tt, World (heap w) (set_tools (tools (self w) ++ ds) (self w))).
Proof.
  unfold PromptSection.add_tools. revert w.
  induction ds as [| d rest IH]; intros w F.
  - simpl. run. rewrite app_nil_r. now rewrite world_eta.
  - inversion F as [| ? ? Ed Erest]; subst.
    destruct (instance_is_ref _ _ _ Ed) as [r ->]; [auto |].
    cbn [PromptSection.extend_tools is_None]. unfold bind at 1.
    rewrite normalize_tool_eq, Ed. cbn [is_None]. run.
    rewrite IH by exact Erest. simpl.
    now rewrite <- app_assoc.
Qed.

(** ** One foreign tool *)


(** ** add_providers *)

(** X11: [add_providers] called with the arguments [xs] followed by [ys] does
    what [add_providers] with [xs] and then [add_providers] with [ys]
    do. *)
Theorem add_providers_sequence xs ys w :
  PromptSection.add_providers (xs ++ ys) w =
  PromptSection.add_providers ys (snd (PromptSection.add_providers xs w)).
Proof.
  unfold PromptSection.add_providers. run.
  now rewrite List.filter_app, app_assoc.
Qed.

(** ** The context property *)

(** X12: An accepted assignment replaces whatever context was stored and is
    read back; a rejected one after it raises [TypeError] and the earlier
    context is still read. Providers and tools are not touched. *)
Theorem context_assignment_then_read w c bad :
  isinstance (heap w) c Context = true ->
  truthy (heap w) c = true ->
  isinstance (heap w) bad Context = false ->
  exists w1,
    PromptSection.context_setter c w = (Return tt, w1)
    /\ PromptSection.context w1 = (Return c, w1)
    /\ (exists e, PromptSection.context_setter bad w1 = (Raise e, w1)
                  /\ exn_cls e = TypeError)
    /\ providers (self w1) = providers (self w)
    /\ tools (self w1) = tools (self w)
    /\ heap w1 = heap w.
Proof.
  intros Ec Et Eb. eexists. split; [now apply context_setter_accepts |].
  split; [now rewrite context_set |].
  split; [| repeat split].
  unfold PromptSection.context_setter. run. rewrite Eb. simpl.
  eexists. split; reflexivity.
Qed.

(** X13: The constructor stores any context it is given, unchecked: a value
    that tests true and is no [Context] is read back by the getter,
    although the setter refuses the same value - even on the section that
    holds it. *)
Theorem constructor_does_not_check_context cls depth v provs h :
  truthy h v = true ->
  isinstance h v Context = false ->
  exists s,
    PromptSection.new cls depth v None provs h = (Return s, h)
    /\ PromptSection.context (World h s) = (Return v, World h s)
    /\ exists e,
        PromptSection.context_setter v (World h s) = (Raise e, World h s)
        /\ exn_cls e = TypeError.
Proof.
  intros Et Ei. eexists. split; [apply new_without_tools |].
  split; [now rewrite context_set |].
  unfold PromptSection.context_setter. run. rewrite Ei. simpl.
  eexists. split; reflexivity.
Qed.

(** ** What add_tools appends *)

Lemma as_single_tool_any_self tool h s s' :
  PromptSection.as_single_tool tool (World h s') =
  (let '(r, w') := PromptSection.as_single_tool tool (World h s) in
   (r, World (heap w') s')).
Proof.
  unfold PromptSection.as_single_tool, ToolContext_from_pydantic_tool. run.
  destruct PYDANTIC_AI_AVAILABLE; [| reflexivity].
  cbn [heap self].
  destruct (from_pydantic_tool h tool) as [o | e]; [reflexivity |].
  destruct (is_AttributeError_or_TypeError e); reflexivity.
Qed.

Lemma normalize_values_any_self (normalize : value -> M value) :
  (forall tool h s s',
      normalize tool (World h s') =
      (let '(r, w') := normalize tool (World h s) in (r, World (heap w') s'))) ->
  forall values result h s s',
    PromptSection.normalize_values normalize values result (World h s') =
    (let '(r, w') := PromptSection.normalize_values normalize values result (World h s) in
     (r, World (heap w') s')).
Proof.
  intros Hn values. induction values as [| v vs IH]; intros result h s s'; simpl.
  - reflexivity.
  - unfold bind. rewrite (Hn v h s s').
    destruct (normalize v (World h s)) as [[a | e] [h1 s1]]; [| reflexivity].
    simpl. apply IH.
Qed.

(** [_normalize_tool] does not read the section it is called on. *)
Lemma normalize_tool_any_self depth :
  forall tool h s s',
    PromptSection._normalize_tool depth tool (World h s') =
    (let '(r, w') := PromptSection._normalize_tool depth tool (World h s) in
     (r, World (heap w') s')).
Proof.
  induction depth as [| depth IH]; intros tool h s s'; [reflexivity |].
  rewrite !normalize_tool_eq. simpl heap.
  destruct (is_None tool); [reflexivity |].
  destruct (isinstance h tool ToolContext); [reflexivity |].
  destruct (PromptSection.tools_mapping_values h tool) as [[values |] | e0].
  - rewrite (normalize_values_any_self _ IH values [] h s s').
    destruct (PromptSection.normalize_values _ values [] (World h s))
      as [[res | e] w1]; reflexivity.
  - apply as_single_tool_any_self.
  - reflexivity.
Qed.

Lemma extend_tools_skips_None depth ts :
  forall w,
    PromptSection.extend_tools depth ts w =
    PromptSection.extend_tools depth (List.filter (fun t => negb (is_None t)) ts) w.
Proof.
  induction ts as [| t rest IH]; intros w; [reflexivity |].
  simpl. destruct (is_None t) eqn:E; simpl; [apply IH |].
  rewrite E. unfold bind at 1 4.
  destruct (PromptSection._normalize_tool depth t w) as [[a | e] w1]; [| reflexivity].
  run. apply IH.
Qed.

Lemma extend_tools_each depth w ts rs w' :
  normalize_each depth w ts rs w' ->
  Forall (fun t => is_None t = false) ts ->
  forall s,
    PromptSection.extend_tools depth ts (World (heap w) s) =
    (Return tt,
     World (heap w') (set_tools (tools s ++ concat (map descriptors_of rs)) s)).
Proof.
  induction 1 as [w | w v r w1 vs rs w2 E _ IH]; intros F s.
  - simpl. run. rewrite app_nil_r. now destruct s.
  - inversion F as [| ? ? Ev Evs]; subst.
    cbn [PromptSection.extend_tools]. rewrite Ev. unfold bind at 1.
    destruct w as [h s0]. simpl heap.
    rewrite (normalize_tool_any_self depth v h s0 s), E. run.
    rewrite (IH Evs). simpl. rewrite collect_descriptors.
    now rewrite <- app_assoc.
Qed.

(** X1: [add_tools] normalizes its arguments other than [None] one after the
    other and appends to [self.tools] what each result contributes (nothing
    for [None], the elements of a list, else the result itself), in
    argument order. *)
Theorem add_tools_appends_descriptors depth ts w rs w' :
  normalize_each depth w (List.filter (fun t => negb (is_None t)) ts) rs w' ->
  PromptSection.add_tools depth ts w =
  (Return tt,
   World (heap w')
     (set_tools (tools (self w) ++ concat (map descriptors_of rs)) (self w))).
Proof.
  intros E. unfold PromptSection.add_tools. rewrite extend_tools_skips_None.
  destruct w as [h s]. apply (extend_tools_each _ _ _ _ _ E).
  clear E. induction ts as [| t rest IH]; simpl; [constructor |].
  destruct (is_None t) eqn:Et; simpl; [exact IH | now constructor].
Qed.

(** X3: [add_tools] stops at the first argument whose normalization raises:
    the exception leaves [add_tools], what the arguments before it added
    to [self.tools] stays, the failing argument adds nothing and the
    arguments after it are not looked at. *)
Theorem add_tools_stops_at_failure depth xs t ys w w1 e w2 :
  PromptSection.add_tools depth xs w = (Return tt, w1) ->
  is_None t = false ->
  PromptSection._normalize_tool depth t w1 = (Raise e, w2) ->
  PromptSection.add_tools depth (xs ++ t :: ys) w = (Raise e, w2)
  /\ self w2 = self w1.
Proof.
  unfold PromptSection.add_tools. intros Ex Et En.
  rewrite extend_tools_app, Ex. cbn [PromptSection.extend_tools].
  rewrite Et. unfold bind at 1. rewrite En. split; [reflexivity |].
  now destruct (normalize_tool_grown _ _ _ _ _ En).
Qed.

(** ** Invariants of the tools list *)

Lemma isinstance_grown w w' d :
  grown w w' ->
  isinstance (heap w) d ToolContext = true ->
  isinstance (heap w') d ToolContext = true.
Proof.
  intros [_ [ext E]] Ei. rewrite E. unfold isinstance in *.
  rewrite mro_of_app; [exact Ei |].
  destruct d; simpl; try exact I.
  simpl in Ei. destruct (heap w !! r); [eauto | discriminate Ei].
Qed.

Lemma normalize_values_ToolContexts (normalize : value -> M value) :
  (forall tool w r w', normalize tool w = (r, w') -> grown w w') ->
  (forall tool w r w',
      normalize tool w = (Return r, w') ->
      Forall (fun d => isinstance (heap w') d ToolContext = true) (descriptors_of r)) ->
  forall values result w res w',
    Forall (fun d => isinstance (heap w) d ToolContext = true) result ->
    PromptSection.normalize_values normalize values result w = (Return res, w') ->
    Forall (fun d => isinstance (heap w') d ToolContext = true) res.
Proof.
  intros Hg Hn values.
  induction values as [| v vs IH]; intros result w res w' F; simpl.
  - run. intros E; inversion E; subst. exact F.
  - unfold bind. destruct (normalize v w) as [[a | e] w1] eqn:E1; [| discriminate].
    apply IH. rewrite collect_descriptors. apply Forall_app. split.
    + eapply Forall_impl; [exact F |]. intros d. apply isinstance_grown.
      eapply Hg; exact E1.
    + eapply Hn; exact E1.
Qed.

Lemma normalize_tool_ToolContexts :
  conversion_yields_ToolContext ->
  forall depth tool w r w',
    PromptSection._normalize_tool depth tool w = (Return r, w') ->
    Forall (fun d => isinstance (heap w') d ToolContext = true) (descriptors_of r).
Proof.
  intros Hc depth.
  induction depth as [| depth IH]; intros tool w r w'; [discriminate |].
  rewrite normalize_tool_eq.
  destruct (is_None tool); [intros E; inversion E; constructor |].
  destruct (isinstance (heap w) tool ToolContext) eqn:Et.
  { intros E; inversion E; subst.
    destruct (instance_is_ref _ _ _ Et) as [a ->]; [auto |].
    simpl. now repeat constructor. }
  destruct (PromptSection.tools_mapping_values (heap w) tool) as [[values |] | e0];
    [| | discriminate].
  - destruct (PromptSection.normalize_values _ values [] w) as [[res | e] w1] eqn:E1;
      [| discriminate].
    intros E; inversion E; subst.
    assert (F : Forall (fun d => isinstance (heap w') d ToolContext = true) res).
    { eapply (normalize_values_ToolContexts _ (normalize_tool_grown depth) IH);
        [| exact E1]. constructor. }
    now destruct res.
  - unfold PromptSection.as_single_tool, ToolContext_from_pydantic_tool. run.
    destruct PYDANTIC_AI_AVAILABLE; [| intros E; inversion E; constructor].
    destruct (from_pydantic_tool (heap w) tool) as [o | e] eqn:Eo; simpl.
    + intros E; inversion E; subst. simpl. repeat constructor.
      unfold isinstance, mro_of, ref, store.
      rewrite list_lookup_middle by reflexivity.
      eapply Hc; exact Eo.
    + destruct (is_AttributeError_or_TypeError e);
        intros E; inversion E; constructor.
Qed.

Lemma extend_tools_ToolContexts :
  conversion_yields_ToolContext ->
  forall depth ts w r w',
    tools_are_ToolContexts w ->
    PromptSection.extend_tools depth ts w = (r, w') ->
    tools_are_ToolContexts w'.
Proof.
  intros Hc depth ts.
  induction ts as [| t rest IH]; intros w r w' Inv; simpl.
  - run. intros E; inversion E; subst. exact Inv.
  - destruct (is_None t); [now apply IH |].
    unfold bind at 1.
    destruct (PromptSection._normalize_tool depth t w) as [[a | e] w1] eqn:E1.
    + run. apply IH. unfold tools_are_ToolContexts. simpl.
      rewrite collect_descriptors. apply Forall_app.
      pose proof (normalize_tool_grown _ _ _ _ _ E1) as G. split.
      * destruct G as [Gs Gh]. rewrite Gs.
        eapply Forall_impl; [exact Inv |]. intros d.
        apply isinstance_grown. now split.
      * eapply normalize_tool_ToolContexts; eassumption.
    + intros E; inversion E; subst.
      pose proof (normalize_tool_grown _ _ _ _ _ E1) as G.
      unfold tools_are_ToolContexts. destruct G as [Gs Gh]. rewrite Gs.
      eapply Forall_impl; [exact Inv |]. intros d.
      apply isinstance_grown. now split.
Qed.

(** X6: When the conversion builds [ToolContext]s, [add_tools] keeps
    [self.tools] a list of [ToolContext] instances, whatever it is given
    and whether it returns or raises. *)
Theorem add_tools_keeps_ToolContexts depth ts w r w' :
  conversion_yields_ToolContext ->
  tools_are_ToolContexts w ->
  PromptSection.add_tools depth ts w = (r, w') ->
  tools_are_ToolContexts w'.
Proof. intros Hc Inv E. eapply extend_tools_ToolContexts; eassumption. Qed.

(** X7: When the conversion builds [ToolContext]s, the tools of a constructed
    section are [ToolContext] instances, whatever the [tools] argument
    held. *)
Theorem new_holds_ToolContexts cls depth ctx ts provs h s h' :
  conversion_yields_ToolContext ->
  PromptSection.new cls depth ctx ts provs h = (Return s, h') ->
  tools_are_ToolContexts (World h' s).
Proof.
  intros Hc. unfold PromptSection.new, PromptSection.__init__. run.
  match goal with
  | |- context [PromptSection.extend_tools ?d ?l ?w] =>
      destruct (PromptSection.extend_tools d l w) as [[u | e] w1] eqn:E
  end; [| discriminate].
  intros E'; inversion E'; subst.
  apply (extend_tools_ToolContexts Hc) in E; [now destruct w1 | constructor].
Qed.

(** ** The shape of a normalization result *)

Lemma shape_descriptors r :
  normalized_shape r -> Forall (fun d => is_ref d = true) (descriptors_of r).
Proof.
  destruct r; simpl; try contradiction; intros S.
  - constructor.
  - now destruct S.
  - now repeat constructor.
Qed.

Lemma normalize_values_refs (normalize : value -> M value) :
  (forall tool w r w', normalize tool w = (Return r, w') -> normalized_shape r) ->
  forall values result w res w',
    Forall (fun d => is_ref d = true) result ->
    PromptSection.normalize_values normalize values result w = (Return res, w') ->
    Forall (fun d => is_ref d = true) res.
Proof.
  intros Hn values.
  induction values as [| v vs IH]; intros result w res w' F; simpl.
  - run. intros E; inversion E; subst. exact F.
  - unfold bind. destruct (normalize v w) as [[a | e] w1] eqn:E1; [| discriminate].
    apply IH. rewrite collect_descriptors. apply Forall_app. split; [exact F |].
    apply shape_descriptors. eapply Hn; exact E1.
Qed.

(** X9: Whatever it is given, [_normalize_tool] returns [None], one object or
    a list of objects: never an empty list, never a list that holds
    [None] or another list. *)
Theorem normalize_tool_result_shape depth :
  forall tool w r w',
    PromptSection._normalize_tool depth tool w = (Return r, w') ->
    normalized_shape r.
Proof.
  induction depth as [| depth IH]; intros tool w r w'; [discriminate |].
  rewrite normalize_tool_eq.
  destruct (is_None tool); [intros E; inversion E; exact I |].
  destruct (isinstance (heap w) tool ToolContext) eqn:Et.
  { intros E; inversion E; subst.
    destruct (instance_is_ref _ _ _ Et) as [a ->]; [auto | exact I]. }
  destruct (PromptSection.tools_mapping_values (heap w) tool) as [[values |] | e0];
    [| | discriminate].
  - destruct (PromptSection.normalize_values _ values [] w) as [[res | e] w1] eqn:E1;
      [| discriminate].
    intros E; inversion E; subst.
    assert (F : Forall (fun d => is_ref d = true) res)
      by (eapply (normalize_values_refs _ IH values []); [constructor | exact E1]).
    destruct res; [exact I | split; [discriminate | exact F]].
  - unfold PromptSection.as_single_tool, ToolContext_from_pydantic_tool. run.
    destruct PYDANTIC_AI_AVAILABLE; [| intros E; inversion E; exact I].
    destruct (from_pydantic_tool (heap w) tool) as [o | e]; simpl.
    + intros E; inversion E; exact I.
    + destruct (is_AttributeError_or_TypeError e); intros E; inversion E; exact I.
Qed.

(** ** The stack bound *)

Lemma normalize_values_mono (n1 n2 : value -> M value) :
  (forall tool w r w', n1 tool w = (Return r, w') -> n2 tool w = (Return r, w')) ->
  forall values result w res w',
    PromptSection.normalize_values n1 values result w = (Return res, w') ->
    PromptSection.normalize_values n2 values result w = (Return res, w').
Proof.
  intros Hn values.
  induction values as [| v vs IH]; intros result w res w'; simpl; [trivial |].
  unfold bind. destruct (n1 v w) as [[a | e] w1] eqn:E1; [| discriminate].
  rewrite (Hn _ _ _ _ E1). apply IH.
Qed.

Lemma normalize_tool_S_depth depth :
  forall tool w r w',
    PromptSection._normalize_tool depth tool w = (Return r, w') ->
    PromptSection._normalize_tool (S depth) tool w = (Return r, w').
Proof.
  induction depth as [| depth IH]; intros tool w r w'; [discriminate |].
  rewrite (normalize_tool_eq (S depth)), (normalize_tool_eq depth).
  destruct (is_None tool); [trivial |].
  destruct (isinstance (heap w) tool ToolContext); [trivial |].
  destruct (PromptSection.tools_mapping_values (heap w) tool) as [[values |] | e0];
    [| trivial | trivial].
  destruct (PromptSection.normalize_values (PromptSection._normalize_tool depth)
              values [] w) as [[res | e] w1] eqn:E1; [| discriminate].
  now rewrite (normalize_values_mono _ _ IH _ _ _ _ _ E1).
Qed.

(** X10: A normalization that returns does not depend on how much stack was
    left: with more room it returns the same result in the same world. *)
Theorem normalize_tool_more_stack depth depth' tool w r w' :
  depth <= depth' ->
  PromptSection._normalize_tool depth tool w = (Return r, w') ->
  PromptSection._normalize_tool depth' tool w = (Return r, w').
Proof.
  induction 1 as [| m _ IH]; [trivial |].
  intros E. apply normalize_tool_S_depth. now apply IH.
Qed.

End Coverage.

(** ** The further properties on the example objects *)

Lemma spec_conversion_yields_ToolContext :
  @conversion_yields_ToolContext with_pydantic_ai.
Proof.
  intros h tool o. simpl. unfold from_pydantic_tool_spec.
  destruct (read_attr h tool "function"); [| discriminate].
  destruct (read_attr h tool "name"); [| discriminate].
  destruct (read_attr h tool "description"); [| discriminate].
  intros E; inversion E; reflexivity.
Qed.

Lemma add_tools_native_witness :
  PromptSection.add_tools (H := without_pydantic_ai) 1 [VRef 1; VRef 1]
    Examples.example_world =
  (Return tt,
   World Examples.example_store (set_tools [VRef 1; VRef 1] Examples.section4)).
Proof.
  apply (add_tools_native (H := without_pydantic_ai) 0 [VRef 1; VRef 1]
           Examples.example_world).
  repeat constructor.
Defined.


Lemma context_assignment_then_read_witness :
  exists w1,
    PromptSection.context_setter (VRef 7) Examples.example_world = (Return tt, w1)
    /\ PromptSection.context w1 = (Return (VRef 7), w1)
    /\ (exists e, PromptSection.context_setter (VStr "Q3 2024") w1 = (Raise e, w1)
                  /\ exn_cls e = TypeError)
    /\ providers (self w1) = providers (self Examples.example_world)
    /\ tools (self w1) = tools (self Examples.example_world)
    /\ heap w1 = heap Examples.example_world.
Proof.
  apply (context_assignment_then_read Examples.example_world (VRef 7) (VStr "Q3 2024"));
    reflexivity.
Defined.

Lemma constructor_does_not_check_context_witness :
  exists s,
    PromptSection.new (H := with_pydantic_ai) "AnalysisSection" 1 (VStr "Q3 2024")
      None [VRef 8] Examples.example_store = (Return s, Examples.example_store)
    /\ PromptSection.context (World Examples.example_store s) =
       (Return (VStr "Q3 2024"), World Examples.example_store s)
    /\ exists e,
        PromptSection.context_setter (VStr "Q3 2024") (World Examples.example_store s) =
        (Raise e, World Examples.example_store s)
        /\ exn_cls e = TypeError.
Proof.
  apply (constructor_does_not_check_context (H := with_pydantic_ai)
           "AnalysisSection" 1 (VStr "Q3 2024") [VRef 8] Examples.example_store);
    reflexivity.
Defined.

Lemma add_tools_appends_descriptors_witness :
  exists w',
    PromptSection.add_tools (H := with_pydantic_ai) 2
      [VRef 1; VNone; VRef 3; VRef 6] Examples.example_world = (Return tt, w')
    /\ tools (self w') = [VRef 1; VRef 9; VRef 10; VRef 11].
Proof.
  eexists. split.
  - eapply (add_tools_appends_descriptors (H := with_pydantic_ai) 2
              [VRef 1; VNone; VRef 3; VRef 6] Examples.example_world).
    simpl.
    eapply normalize_each_cons; [reflexivity |].
    eapply normalize_each_cons; [reflexivity |].
    eapply normalize_each_cons; [reflexivity |].
    apply normalize_each_nil.
  - reflexivity.
Defined.

Lemma add_tools_stops_at_failure_witness :
  PromptSection.add_tools (H := with_pydantic_ai) 3 ([VRef 1] ++ VRef 2 :: [VRef 1])
    Examples.boxed_world =
  (Raise (Exn RecursionError "maximum recursion depth exceeded"),
   World (heap Examples.boxed_world) (set_tools [VRef 1] Examples.section4))
  /\ self (World (heap Examples.boxed_world) (set_tools [VRef 1] Examples.section4)) =
     self (World (heap Examples.boxed_world) (set_tools [VRef 1] Examples.section4)).
Proof.
  apply (add_tools_stops_at_failure (H := with_pydantic_ai) 3 [VRef 1] (VRef 2)
           [VRef 1] Examples.boxed_world
           (World (heap Examples.boxed_world) (set_tools [VRef 1] Examples.section4)));
    reflexivity.
Defined.

Lemma add_tools_keeps_ToolContexts_witness :
  tools_are_ToolContexts
    (snd (PromptSection.add_tools (H := with_pydantic_ai) 2
            [VRef 1; VRef 3; VRef 6; VInt 5] Examples.example_world)).
Proof.
  eapply (add_tools_keeps_ToolContexts (H := with_pydantic_ai) 2
            [VRef 1; VRef 3; VRef 6; VInt 5] Examples.example_world).
  - exact spec_conversion_yields_ToolContext.
  - constructor.
  - apply surjective_pairing.
Defined.

Lemma new_holds_ToolContexts_witness :
  exists s h',
    PromptSection.new (H := with_pydantic_ai) "AnalysisSection" 2 VNone
      (Some [VRef 1; VRef 5; VRef 6]) [] Examples.example_store = (Return s, h')
    /\ length (tools s) = 4
    /\ tools_are_ToolContexts (World h' s).
Proof.
  eexists. eexists. split; [reflexivity |]. split; [reflexivity |].
  eapply (new_holds_ToolContexts (H := with_pydantic_ai) "AnalysisSection" 2 VNone
            (Some [VRef 1; VRef 5; VRef 6]) [] Examples.example_store).
  - exact spec_conversion_yields_ToolContext.
  - reflexivity.
Defined.

Lemma normalize_tool_result_shape_witness :
  normalized_shape (VList [VRef 9; VRef 10]).
Proof.
  eapply (normalize_tool_result_shape (H := with_pydantic_ai) 2 (VRef 6)
            Examples.example_world).
  reflexivity.
Defined.

Lemma normalize_tool_more_stack_witness :
  fst (PromptSection._normalize_tool (H := with_pydantic_ai) 5 (VRef 6)
         Examples.example_world) = Return (VList [VRef 9; VRef 10]).
Proof.
  erewrite (normalize_tool_more_stack (H := with_pydantic_ai) 2 5 (VRef 6)
              Examples.example_world);
    [reflexivity | repeat constructor | reflexivity].
Defined.

